(** * GPSFilter: a constant-velocity Kalman filter over GPS fixes

    A shallow embedding of [GPSFilter.cpp].  The class keeps one
    [KalmanFilter] member [f]; every method is embedded as a computation that
    threads [f] and may stop with an error.  The code is written once, over an
    abstract scalar type [D] standing for C's [double]:

    - [binary64] is the arithmetic of the code: IEEE 754 double precision
      (Rocq's primitive floats).  The functions of [<math.h>] have no
      definition in it; what is proved of [get_bearing] and [get_mph] holds
      for every [sin], [cos], [sqrt] and [atan2];
    - [real] is exact arithmetic, with the mathematical functions.  It says
      what the formulas of the code mean, not what the code returns: there
      is no rounding in it, no NaN, no infinity and no signed zero.

    The Kalman library behind [GPSFilter.h] (matrices, [alloc_filter],
    [update]) is not part of the file: its matrix routines are modelled from
    the specification, and [update] is a parameter.  [read_lat_long] reads a
    file of characters, with [fscanf] of the C library as a parameter; the
    destructor, which frees the filter, is left out. *)

From Stdlib Require Import ZArith QArith Reals Lra Lia Floats Uint63 Ascii.
From stdpp Require Import base list.

Set Warnings "-inexact-float".

(** ** The scalar type *)

(** What the code asks of [double]: decimal literals, the four operations
    and the two comparisons it uses ([<] and [>=]). *)
Class Arith (D : Type) : Type := {
  lit : Q -> D;
  dadd : D -> D -> D;
  dsub : D -> D -> D;
  dmul : D -> D -> D;
  ddiv : D -> D -> D;
  dlt : D -> D -> bool;
  dge : D -> D -> bool
}.

(** The functions of [<math.h>] the code calls. *)
Class Libm (D : Type) : Type := {
  dsin : D -> D;
  dcos : D -> D;
  dsqrt : D -> D;
  datan2 : D -> D -> D
}.

Declare Scope double_scope.
Delimit Scope double_scope with D.
Infix "+" := dadd : double_scope.
Infix "-" := dsub : double_scope.
Infix "*" := dmul : double_scope.
Infix "/" := ddiv : double_scope.
Infix "<?" := dlt : double_scope.
Infix ">=?" := dge (at level 70) : double_scope.

(** ** Errors *)

(** The three errors of the specification, and two outcomes the C code leaves
    undefined or open: an index outside a matrix, and a loop that has not
    finished within its iteration budget. *)
Inductive Error : Type :=
| DimensionError
| SingularMatrixError
| InvalidInputError
| OutOfBounds
| OutOfFuel.

Inductive result (A : Type) : Type :=
| Ok (a : A)
| Err (e : Error).
Arguments Ok {A} a.
Arguments Err {A} e.

Definition result_bind {A B : Type} (r : result A) (k : A -> result B) : result B :=
  match r with
  | Ok a => k a
  | Err e => Err e
  end.

Section Embedding.
Context {D : Type} `{Arith D}.
Local Open Scope double_scope.

(** ** Matrices *)

(** Modelled from the spec: the matrix type of the Kalman library, which
    [GPSFilter.h] includes and this file does not define (spec 3, Matrix:
    [rows], [cols] and a row-major two-dimensional array of doubles). *)
Record Matrix : Type := {
  rows : nat;
  cols : nat;
  data : list (list D)
}.

(** [m.data[i][j]] as an rvalue. *)
Definition get_entry (m : Matrix) (i j : nat) : result D :=
  match data m !! i with
  | Some row =>
      match row !! j with
      | Some x => Ok x
      | None => Err OutOfBounds
      end
  | None => Err OutOfBounds
  end.

(** [m.data[i][j] = v]. *)
Definition set_entry (i j : nat) (v : D) (m : Matrix) : result Matrix :=
  match data m !! i with
  | Some row =>
      if decide (j < length row)%nat
      then Ok {| rows := rows m; cols := cols m;
                 data := <[i := <[j := v]> row]> (data m) |}
      else Err OutOfBounds
  | None => Err OutOfBounds
  end.

(** Modelled from the spec: [create(rows, cols)] of the matrix component
    (spec 4.1), a zero-initialised matrix, refused when a dimension is not
    positive. *)
Definition alloc_matrix (r c : nat) : result Matrix :=
  if decide (r = 0 \/ c = 0)%nat then Err DimensionError
  else Ok {| rows := r; cols := c; data := replicate r (replicate c (lit 0)) |}.

(** Cuts a row-major list of values into rows of [c] entries. *)
Fixpoint row_major (r c : nat) (values : list D) : list (list D) :=
  match r with
  | O => []
  | S r' => take c values :: row_major r' c (drop c values)
  end.

(** Modelled from the spec: [set(values...)] of the matrix component
    (spec 4.1), all entries assigned in row-major order, refused when the
    number of values is not [rows * cols]. *)
Definition set_matrix (m : Matrix) (values : list D) : result Matrix :=
  if decide (length values = rows m * cols m)%nat
  then Ok {| rows := rows m; cols := cols m;
             data := row_major (rows m) (cols m) values |}
  else Err DimensionError.

Definition identity_row (n i : nat) : list D :=
  map (fun j => if decide (i = j) then lit 1 else lit 0) (seq 0 n).

(** Modelled from the spec: [identity(n)] of the matrix component (spec 4.1),
    [1.0] on the diagonal; applied in place to a square matrix. *)
Definition set_identity_matrix (m : Matrix) : result Matrix :=
  if decide (rows m = cols m)
  then Ok {| rows := rows m; cols := cols m;
             data := map (identity_row (cols m)) (seq 0 (rows m)) |}
  else Err DimensionError.

(** Modelled from the spec: [scale(factor)] of the matrix component
    (spec 4.1), every entry multiplied by the factor. *)
Definition scale_matrix (m : Matrix) (scalar : D) : result Matrix :=
  Ok {| rows := rows m; cols := cols m;
        data := map (map (fun x => x * scalar)) (data m) |}.

(** ** The filter *)

(** Modelled from the spec: the Kalman filter state (spec 3), with the field
    names [GPSFilter.cpp] uses on [f]. *)
Record KalmanFilter : Type := {
  state_dim : nat;
  obs_dim : nat;
  state_transition : Matrix;
  observation_model : Matrix;
  process_noise_covariance : Matrix;
  observation_noise_covariance : Matrix;
  observation : Matrix;
  state_estimate : Matrix;
  estimate_covariance : Matrix
}.

Definition with_state_transition (m : Matrix) (f : KalmanFilter) : KalmanFilter :=
  {| state_dim := state_dim f; obs_dim := obs_dim f;
     state_transition := m;
     observation_model := observation_model f;
     process_noise_covariance := process_noise_covariance f;
     observation_noise_covariance := observation_noise_covariance f;
     observation := observation f;
     state_estimate := state_estimate f;
     estimate_covariance := estimate_covariance f |}.

Definition with_observation_model (m : Matrix) (f : KalmanFilter) : KalmanFilter :=
  {| state_dim := state_dim f; obs_dim := obs_dim f;
     state_transition := state_transition f;
     observation_model := m;
     process_noise_covariance := process_noise_covariance f;
     observation_noise_covariance := observation_noise_covariance f;
     observation := observation f;
     state_estimate := state_estimate f;
     estimate_covariance := estimate_covariance f |}.

Definition with_process_noise_covariance (m : Matrix) (f : KalmanFilter) : KalmanFilter :=
  {| state_dim := state_dim f; obs_dim := obs_dim f;
     state_transition := state_transition f;
     observation_model := observation_model f;
     process_noise_covariance := m;
     observation_noise_covariance := observation_noise_covariance f;
     observation := observation f;
     state_estimate := state_estimate f;
     estimate_covariance := estimate_covariance f |}.

Definition with_observation_noise_covariance (m : Matrix) (f : KalmanFilter) : KalmanFilter :=
  {| state_dim := state_dim f; obs_dim := obs_dim f;
     state_transition := state_transition f;
     observation_model := observation_model f;
     process_noise_covariance := process_noise_covariance f;
     observation_noise_covariance := m;
     observation := observation f;
     state_estimate := state_estimate f;
     estimate_covariance := estimate_covariance f |}.

Definition with_observation (m : Matrix) (f : KalmanFilter) : KalmanFilter :=
  {| state_dim := state_dim f; obs_dim := obs_dim f;
     state_transition := state_transition f;
     observation_model := observation_model f;
     process_noise_covariance := process_noise_covariance f;
     observation_noise_covariance := observation_noise_covariance f;
     observation := m;
     state_estimate := state_estimate f;
     estimate_covariance := estimate_covariance f |}.

Definition with_state_estimate (m : Matrix) (f : KalmanFilter) : KalmanFilter :=
  {| state_dim := state_dim f; obs_dim := obs_dim f;
     state_transition := state_transition f;
     observation_model := observation_model f;
     process_noise_covariance := process_noise_covariance f;
     observation_noise_covariance := observation_noise_covariance f;
     observation := observation f;
     state_estimate := m;
     estimate_covariance := estimate_covariance f |}.

Definition with_estimate_covariance (m : Matrix) (f : KalmanFilter) : KalmanFilter :=
  {| state_dim := state_dim f; obs_dim := obs_dim f;
     state_transition := state_transition f;
     observation_model := observation_model f;
     process_noise_covariance := process_noise_covariance f;
     observation_noise_covariance := observation_noise_covariance f;
     observation := observation f;
     state_estimate := state_estimate f;
     estimate_covariance := m |}.

(** Modelled from the spec: [alloc_filter(state_dim, obs_dim)] of the Kalman
    library, every matrix of the filter created (zero) with the shape spec 3
    gives it. *)
Definition alloc_filter (sd od : nat) : result KalmanFilter :=
  result_bind (alloc_matrix sd sd) (fun square =>
  result_bind (alloc_matrix od sd) (fun obs_model =>
  result_bind (alloc_matrix od od) (fun obs_noise =>
  result_bind (alloc_matrix od 1) (fun obs =>
  result_bind (alloc_matrix sd 1) (fun state =>
  Ok {| state_dim := sd; obs_dim := od;
        state_transition := square;
        observation_model := obs_model;
        process_noise_covariance := square;
        observation_noise_covariance := obs_noise;
        observation := obs;
        state_estimate := state;
        estimate_covariance := square |}))))).

(** ** Methods as computations on the member [f] *)

(** A method runs on the current filter and leaves a filter behind, also when
    it stops with an error: what was written before the error stays written,
    as with the in-place updates of the C code. *)
Definition M (A : Type) : Type := KalmanFilter -> result A * KalmanFilter.

Definition ret {A : Type} (a : A) : M A := fun f => (Ok a, f).

Definition bind {A B : Type} (c : M A) (k : A -> M B) : M B :=
  fun f =>
    match c f with
    | (Ok a, f') => k a f'
    | (Err e, f') => (Err e, f')
    end.

Definition lift {A : Type} (r : result A) : M A := fun f => (r, f).

(** Reads [f.field.data[i][j]]. *)
Definition read (field : KalmanFilter -> Matrix) (i j : nat) : M D :=
  fun f => (get_entry (field f) i j, f).

(** Runs a matrix routine on one matrix of [f], in place. *)
Definition in_place (field : KalmanFilter -> Matrix)
    (store : Matrix -> KalmanFilter -> KalmanFilter)
    (routine : Matrix -> result Matrix) : M unit :=
  fun f =>
    match routine (field f) with
    | Ok m => (Ok tt, store m f)
    | Err e => (Err e, f)
    end.

Notation "x <- c ;; k" := (bind c (fun x => k))
  (at level 100, c at next level, right associativity).
Notation "c ;; k" := (bind c (fun _ => k))
  (at level 100, right associativity).

(** ** GPSFilter.cpp *)

Definition PI : D := lit 3.14159265.
Definition EARTH_RADIUS_IN_MILES : D := lit 3963.1676.

(** [GPSFilter::set_seconds_per_timestep] *)
Definition set_seconds_per_timestep (seconds_per_timestep : D) : M unit :=
  let unit_scaler := lit 0.001 in
  in_place state_transition with_state_transition
    (set_entry 0 2 (unit_scaler * seconds_per_timestep)) ;;
  in_place state_transition with_state_transition
    (set_entry 1 3 (unit_scaler * seconds_per_timestep)).

(** The body of the constructor [GPSFilter::GPSFilter], after [alloc_filter]. *)
Definition GPSFilter_configure (noise : D) : M unit :=
  let v2p := lit 0.001 in
  in_place state_transition with_state_transition set_identity_matrix ;;
  set_seconds_per_timestep (lit 1) ;;
  in_place observation_model with_observation_model
    (fun m => set_matrix m [lit 1; lit 0; lit 0; lit 0;
                            lit 0; lit 1; lit 0; lit 0]) ;;
  let pos := lit 0.000001 in
  in_place process_noise_covariance with_process_noise_covariance
    (fun m => set_matrix m [pos; lit 0; lit 0; lit 0;
                            lit 0; pos; lit 0; lit 0;
                            lit 0; lit 0; lit 1; lit 0;
                            lit 0; lit 0; lit 0; lit 1]) ;;
  in_place observation_noise_covariance with_observation_noise_covariance
    (fun m => set_matrix m [pos * noise; lit 0;
                            lit 0; pos * noise]) ;;
  in_place state_estimate with_state_estimate
    (fun m => set_matrix m [lit 0; lit 0; lit 0; lit 0]) ;;
  in_place estimate_covariance with_estimate_covariance set_identity_matrix ;;
  let trillion := lit 1000 * lit 1000 * lit 1000 * lit 1000 in
  in_place estimate_covariance with_estimate_covariance
    (fun m => scale_matrix m trillion).

(** [GPSFilter::GPSFilter]: the filter a new object holds. *)
Definition GPSFilter (noise : D) : result KalmanFilter :=
  result_bind (alloc_filter 4 2) (fun f =>
    match GPSFilter_configure noise f with
    | (Ok _, f') => Ok f'
    | (Err e, _) => Err e
    end).

Section Update.

(** [update(f)] belongs to the Kalman library, which this file only calls:
    the predict and update step of spec 4.3, run on [f] in place.  It stays a
    parameter of the embedding. *)
Variable update : M unit.

(** [GPSFilter::update_velocity2d] *)
Definition update_velocity2d (lat lon seconds_since_last_timestep : D) : M unit :=
  set_seconds_per_timestep seconds_since_last_timestep ;;
  in_place observation with_observation
    (fun m => set_matrix m [lat * lit 1000; lon * lit 1000]) ;;
  update.

End Update.

(** [GPSFilter::get_lat_long] *)
Definition get_lat_long : M (D * D) :=
  x <- read state_estimate 0 0 ;;
  y <- read state_estimate 1 0 ;;
  ret (x / lit 1000, y / lit 1000).

(** [GPSFilter::get_velocity] *)
Definition get_velocity : M (D * D) :=
  vx <- read state_estimate 2 0 ;;
  vy <- read state_estimate 3 0 ;;
  ret (vx / (lit 1000 * lit 1000), vy / (lit 1000 * lit 1000)).

(** [while (bearing >= 360.0) bearing -= 360.0;] run for at most [fuel]
    iterations. *)
Fixpoint while_ge_360 (fuel : nat) (bearing : D) : result D :=
  if bearing >=? lit 360
  then match fuel with
       | O => Err OutOfFuel
       | S fuel' => while_ge_360 fuel' (bearing - lit 360)
       end
  else Ok bearing.

(** [while (bearing < 0.0) bearing += 360.0;] run for at most [fuel]
    iterations. *)
Fixpoint while_lt_0 (fuel : nat) (bearing : D) : result D :=
  if bearing <? lit 0
  then match fuel with
       | O => Err OutOfFuel
       | S fuel' => while_lt_0 fuel' (bearing + lit 360)
       end
  else Ok bearing.

Section Trigonometry.
Context `{Libm D}.

(** The value of [bearing] in [GPSFilter::get_bearing] when the loops are
    reached, from the four values the accessors returned. *)
Definition bearing_before_loops (lat lon delta_lat delta_lon : D) : D :=
  let to_radians := PI / lit 180 in
  let lat := lat * to_radians in
  let lon := lon * to_radians in
  let delta_lat := delta_lat * to_radians in
  let delta_lon := delta_lon * to_radians in
  let lat1 := lat - delta_lat in
  let y := dsin delta_lon * dcos lat in
  let x := dcos lat1 * dsin lat - dsin lat1 * dcos lat * dcos delta_lon in
  let bearing := datan2 y x in
  bearing / to_radians.

(** [GPSFilter::get_bearing]; each of its two loops may run [fuel] times. *)
Definition get_bearing (fuel : nat) : M D :=
  p <- get_lat_long ;;
  v <- get_velocity ;;
  let bearing := bearing_before_loops (fst p) (snd p) (fst v) (snd v) in
  bearing <- lift (while_ge_360 fuel bearing) ;;
  bearing <- lift (while_lt_0 fuel bearing) ;;
  ret bearing.

(** The variable [a] of [GPSFilter::calculate_mph]. *)
Definition haversine_a (lat lon delta_lat delta_lon : D) : D :=
  let to_radians := PI / lit 180 in
  let lat := lat * to_radians in
  let lon := lon * to_radians in
  let delta_lat := delta_lat * to_radians in
  let delta_lon := delta_lon * to_radians in
  let lat1 := lat - delta_lat in
  let sin_half_dlat := dsin (delta_lat / lit 2) in
  let sin_half_dlon := dsin (delta_lon / lit 2) in
  sin_half_dlat * sin_half_dlat
  + dcos lat1 * dcos lat * sin_half_dlon * sin_half_dlon.

(** The variable [radians_per_second] of [GPSFilter::calculate_mph], from
    [a]. *)
Definition radians_per_second (a : D) : D :=
  lit 2 * datan2 (lit 1000 * dsqrt a) (lit 1000 * dsqrt (lit 1 - a)).

(** [GPSFilter::calculate_mph] *)
Definition calculate_mph (lat lon delta_lat delta_lon : D) : D :=
  let a := haversine_a lat lon delta_lat delta_lon in
  let miles_per_second := radians_per_second a * EARTH_RADIUS_IN_MILES in
  let miles_per_hour := miles_per_second * lit 60 * lit 60 in
  miles_per_hour.

(** [GPSFilter::get_mph] *)
Definition get_mph : M D :=
  p <- get_lat_long ;;
  v <- get_velocity ;;
  ret (calculate_mph (fst p) (snd p) (fst v) (snd v)).

End Trigonometry.

End Embedding.

Arguments Matrix D : clear implicits.
Arguments KalmanFilter D : clear implicits.
Arguments M D A : clear implicits.

(** ** The arithmetic of [double], and exact arithmetic *)

(** *** IEEE 754 binary64 *)

Definition float_of_Z (z : Z) : float :=
  match z with
  | Z0 => 0%float
  | Zpos _ => PrimFloat.of_uint63 (Uint63.of_Z z)
  | Zneg p => (- PrimFloat.of_uint63 (Uint63.of_Z (Zpos p)))%float
  end.

(** A decimal literal is the double nearest to it: the quotient of two
    integers that are doubles themselves, rounded once by the division. *)
#[export] Instance binary64 : Arith float := {|
  lit q := (float_of_Z (Qnum q) / float_of_Z (Zpos (Qden q)))%float;
  dadd := PrimFloat.add;
  dsub := PrimFloat.sub;
  dmul := PrimFloat.mul;
  ddiv := PrimFloat.div;
  dlt := PrimFloat.ltb;
  dge x y := PrimFloat.leb y x
|}.

(** *** Exact real arithmetic *)

(** The arithmetic below is a reference, not a reading of the code: a
    statement over it says what a formula gives when nothing is rounded, and
    the code in binary64 can return something else (360 from the loops of
    [get_bearing], NaN from [get_mph], 0 for a velocity that underflows).

    [atan2] over the reals: the angle of the point [(x, y)], in [(-PI, PI]],
    and [0] at the origin.  It has one zero only, where [atan2] of C tells
    [-0.0] from [0.0]. *)
Definition atan2 (y x : R) : R :=
  (if Rlt_dec 0 x then atan (y / x)
   else if Rlt_dec x 0 then
     if Rle_dec 0 y then atan (y / x) + Rtrigo1.PI else atan (y / x) - Rtrigo1.PI
   else if Rlt_dec 0 y then Rtrigo1.PI / 2
   else if Rlt_dec y 0 then - (Rtrigo1.PI / 2)
   else 0)%R.

#[export] Instance real : Arith R := {|
  lit q := (IZR (Qnum q) / IZR (Zpos (Qden q)))%R;
  dadd := Rplus;
  dsub := Rminus;
  dmul := Rmult;
  ddiv := Rdiv;
  dlt x y := if Rlt_dec x y then true else false;
  dge x y := if Rge_dec x y then true else false
|}.

(** The square root of the library is 0 on negative numbers, where that of C
    is not a number.  In exact arithmetic the code takes it of numbers that
    are not negative ([haversine_bounds] below); in binary64 it does not
    always. *)
#[export] Instance real_libm : Libm R := {|
  dsin := sin;
  dcos := cos;
  dsqrt := R_sqrt.sqrt;
  datan2 := atan2
|}.

(** ** Reference definitions, from the words of the specification *)


(** Initial bearing of the great circle from a point of latitude [lat1] to a
    point of latitude [lat2] that lies [dlon] further east (radians). *)
Definition initial_bearing (lat1 lat2 dlon : R) : R :=
  atan2 (sin dlon * cos lat2)
        (cos lat1 * sin lat2 - sin lat1 * cos lat2 * cos dlon).

(** The haversine of the central angle between two points (radians). *)
Definition haversine (lat1 lon1 lat2 lon2 : R) : R :=
  (sin ((lat2 - lat1) / 2))² + cos lat1 * cos lat2 * (sin ((lon2 - lon1) / 2))².

(** The central angle between two points, by the haversine formula. *)
Definition central_angle (lat1 lon1 lat2 lon2 : R) : R :=
  let a := haversine lat1 lon1 lat2 lon2 in
  2 * atan2 (R_sqrt.sqrt a) (R_sqrt.sqrt (1 - a)).

(** Degrees to radians, with the value the code gives [PI]. *)
Definition radians (degrees : R) : R := degrees * (3.14159265 / 180).

(** ** The shape of a filter *)

(** A matrix of [r] rows of [c] entries each, as [alloc_matrix r c] makes
    them. *)
Definition well_formed {D : Type} (r c : nat) (m : Matrix D) : bool :=
  (rows m =? r)%nat && (cols m =? c)%nat && (length (data m) =? r)%nat
  && forallb (fun row => (length row =? c)%nat) (data m).

(** The shapes [alloc_filter(4, 2)] gives the matrices of [f]; no method of
    the class changes them. *)
Definition shaped {D : Type} (f : KalmanFilter D) : bool :=
  (state_dim f =? 4)%nat && (obs_dim f =? 2)%nat
  && well_formed 4 4 (state_transition f)
  && well_formed 2 4 (observation_model f)
  && well_formed 4 4 (process_noise_covariance f)
  && well_formed 2 2 (observation_noise_covariance f)
  && well_formed 2 1 (observation f)
  && well_formed 4 1 (state_estimate f)
  && well_formed 4 4 (estimate_covariance f).

(** ** Reading the input file *)

Section ReadLatLong.
Context {D : Type}.

(** What one call [fscanf(file, "%lf,%lf", lat, lon)] does: the end of the
    file before any conversion, no number, a latitude only (stored in
    [*lat]), or both numbers (stored in [*lat] and [*lon]); its return value
    is [EOF], 0, 1 or 2. *)
Inductive scan : Type :=
| ScanEOF
| Scan0
| Scan1 (lat : D)
| Scan2 (lat lon : D).

(** [fscanf] belongs to the C library.  It stays a parameter: from the rest
    of the file it tells what was scanned and how many characters were
    taken. *)
Variable fscanf : list ascii -> scan * nat.

(** [while ((ch = getc(file)) != '\n') if (EOF == ch) return 0;]: the file
    after the next line feed, or nothing when the file ends first. *)
Fixpoint skip_line (file : list ascii) : option (list ascii) :=
  match file with
  | [] => None
  | ch :: file' =>
      if Ascii.eqb ch "010"%char then Some file' else skip_line file'
  end.

(** [GPSFilter::read_lat_long], its outer loop run for at most [fuel]
    rounds: the return value, [*lat], [*lon] and the rest of the file. *)
Fixpoint read_lat_long (fuel : nat) (file : list ascii) (lat lon : D)
    : result (Z * D * D * list ascii) :=
  match fuel with
  | O => Err OutOfFuel
  | S fuel' =>
      let (scanned, taken) := fscanf file in
      let file := drop taken file in
      match scanned with
      | Scan2 lat lon => Ok (1%Z, lat, lon, file)
      | _ =>
          let lat := match scanned with Scan1 lat' => lat' | _ => lat end in
          match skip_line file with
          | None => Ok (0%Z, lat, lon, [])
          | Some file' => read_lat_long fuel' file' lat lon
          end
      end
  end.

End ReadLatLong.

(** * Properties *)

(** ** Entries of a matrix *)

Section Entries.
Context {D : Type} `{Arith D}.

Lemma get_entry_Ok (m : Matrix D) (i j : nat) (x : D) :
  get_entry m i j = Ok x <->
  exists row, data m !! i = Some row /\ row !! j = Some x.
Proof.
  unfold get_entry. split.
  - destruct (data m !! i) as [row|] eqn:Ei; [|discriminate].
    destruct (row !! j) as [y|] eqn:Ej; [|discriminate].
    intros [= ->]. eauto.
  - intros (row & -> & ->). reflexivity.
Qed.

(** A write inside the matrix succeeds, keeps the shape, is read back, and
    leaves every other entry as it was. *)
Lemma set_entry_spec (i j : nat) (v x : D) (m : Matrix D) :
  get_entry m i j = Ok x ->
  exists m', set_entry i j v m = Ok m'
    /\ rows m' = rows m /\ cols m' = cols m
    /\ get_entry m' i j = Ok v
    /\ forall i' j', (i', j') <> (i, j) -> get_entry m' i' j' = get_entry m i' j'.
Proof.
  intros Hx. apply get_entry_Ok in Hx as (row & Hi & Hj).
  assert (Hlt : (j < length row)%nat) by (eapply lookup_lt_Some; eauto).
  assert (Hi' : (i < length (data m))%nat) by (eapply lookup_lt_Some; eauto).
  unfold set_entry. rewrite Hi. destruct (decide (j < length row)%nat); [|lia].
  eexists. split; [reflexivity|]. simpl. repeat split.
  - unfold get_entry. simpl.
    rewrite list_lookup_insert_eq by assumption.
    rewrite list_lookup_insert_eq by assumption. reflexivity.
  - intros i' j' Hne. unfold get_entry. simpl.
    destruct (decide (i' = i)) as [->|Hi''].
    + rewrite list_lookup_insert_eq by assumption. rewrite Hi.
      rewrite list_lookup_insert_ne by congruence. reflexivity.
    + rewrite list_lookup_insert_ne by congruence. reflexivity.
Qed.

End Entries.

(** ** The new filter *)

(** Whatever the reading of [double] and whatever the noise, the constructor
    succeeds, and its filter has the shape the methods rely on: the two
    entries of the transition matrix that hold the time step, a 2x1
    observation, and a zero state estimate of four entries. *)
Lemma GPSFilter_shape {D : Type} `{Arith D} (noise : D) :
  exists f : KalmanFilter D,
    GPSFilter noise = Ok f
    /\ get_entry (state_transition f) 0 2 = Ok (lit 0.001 * lit 1)%D
    /\ get_entry (state_transition f) 1 3 = Ok (lit 0.001 * lit 1)%D
    /\ rows (observation f) = 2%nat
    /\ cols (observation f) = 1%nat
    /\ data (state_estimate f) = [[lit 0]; [lit 0]; [lit 0]; [lit 0]].
Proof.
  eexists. split; [vm_compute; reflexivity|].
  repeat split.
Qed.

(** ** The time step *)

Section TimeStep.
Context {D : Type} `{Arith D}.

(** [set_seconds_per_timestep] on a filter whose transition matrix holds the
    entries (0,2) and (1,3): the run succeeds and replaces the transition
    matrix by one that differs in those two entries only. *)
Lemma set_seconds_per_timestep_run (s a b : D) (f : KalmanFilter D) :
  get_entry (state_transition f) 0 2 = Ok a ->
  get_entry (state_transition f) 1 3 = Ok b ->
  exists m,
    set_seconds_per_timestep s f = (Ok tt, with_state_transition m f)
    /\ rows m = rows (state_transition f)
    /\ cols m = cols (state_transition f)
    /\ get_entry m 0 2 = Ok (lit 0.001 * s)%D
    /\ get_entry m 1 3 = Ok (lit 0.001 * s)%D
    /\ forall i j, (i, j) <> (0, 2)%nat -> (i, j) <> (1, 3)%nat ->
         get_entry m i j = get_entry (state_transition f) i j.
Proof.
  intros Ha Hb.
  destruct (set_entry_spec 0 2 (lit 0.001 * s)%D a _ Ha)
    as (m1 & E1 & R1 & C1 & G1 & F1).
  assert (Hb1 : get_entry m1 1 3 = Ok b) by (rewrite F1; [exact Hb|congruence]).
  destruct (set_entry_spec 1 3 (lit 0.001 * s)%D b _ Hb1)
    as (m2 & E2 & R2 & C2 & G2 & F2).
  exists m2. unfold set_seconds_per_timestep, bind, in_place.
  rewrite E1. simpl. rewrite E2. repeat split.
  - congruence.
  - congruence.
  - rewrite F2; [exact G1|congruence].
  - exact G2.
  - intros i j H02 H13. rewrite F2 by assumption. apply F1. assumption.
Qed.


(** C6.  [set_seconds_per_timestep s], run on a filter whose transition matrix
    holds the entries (0,2) and (1,3), returns normally; afterwards both
    entries are [0.001 * s], every other entry of the transition matrix is as
    before, and so is every other field of the filter. *)
Theorem set_seconds_per_timestep_frame (s a b : D) (f : KalmanFilter D) :
  get_entry (state_transition f) 0 2 = Ok a ->
  get_entry (state_transition f) 1 3 = Ok b ->
  exists f',
    set_seconds_per_timestep s f = (Ok tt, f')
    /\ get_entry (state_transition f') 0 2 = Ok (lit 0.001 * s)%D
    /\ get_entry (state_transition f') 1 3 = Ok (lit 0.001 * s)%D
    /\ (forall i j, (i, j) <> (0, 2)%nat -> (i, j) <> (1, 3)%nat ->
          get_entry (state_transition f') i j
          = get_entry (state_transition f) i j)
    /\ rows (state_transition f') = rows (state_transition f)
    /\ cols (state_transition f') = cols (state_transition f)
    /\ state_dim f' = state_dim f
    /\ obs_dim f' = obs_dim f
    /\ observation_model f' = observation_model f
    /\ process_noise_covariance f' = process_noise_covariance f
    /\ observation_noise_covariance f' = observation_noise_covariance f
    /\ observation f' = observation f
    /\ state_estimate f' = state_estimate f
    /\ estimate_covariance f' = estimate_covariance f.
Proof.
  intros Ha Hb.
  destruct (set_seconds_per_timestep_run s a b f Ha Hb)
    as (m & Run & Rm & Cm & G02 & G13 & Frame).
  exists (with_state_transition m f). simpl. tauto.
Qed.

End TimeStep.

(** The filter of a new [GPSFilter(1.0)] has the two entries, and a time step
    of 2.5 seconds is written into them. *)
Lemma set_seconds_per_timestep_frame_example :
  exists f : KalmanFilter float,
    GPSFilter 1%float = Ok f
    /\ exists f',
      set_seconds_per_timestep 2.5%float f = (Ok tt, f')
      /\ get_entry (state_transition f') 0 2 = Ok (lit 0.001 * 2.5%float)%D
      /\ get_entry (state_transition f') 1 3 = Ok (lit 0.001 * 2.5%float)%D
      /\ (forall i j, (i, j) <> (0, 2)%nat -> (i, j) <> (1, 3)%nat ->
            get_entry (state_transition f') i j
            = get_entry (state_transition f) i j)
      /\ rows (state_transition f') = rows (state_transition f)
      /\ cols (state_transition f') = cols (state_transition f)
      /\ state_dim f' = state_dim f
      /\ obs_dim f' = obs_dim f
      /\ observation_model f' = observation_model f
      /\ process_noise_covariance f' = process_noise_covariance f
      /\ observation_noise_covariance f' = observation_noise_covariance f
      /\ observation f' = observation f
      /\ state_estimate f' = state_estimate f
      /\ estimate_covariance f' = estimate_covariance f.
Proof.
  eexists. split; [vm_compute; reflexivity|].
  eapply set_seconds_per_timestep_frame; vm_compute; reflexivity.
Defined.

(** ** One observation *)

Section Observation.
Context {D : Type} `{Arith D}.

(** [update_velocity2d] on a filter as [alloc_filter(4, 2)] shapes it: the
    outcome is that of [update], run on the filter with the new time step and
    the new observation. *)
Lemma update_velocity2d_run (lat lon s a b : D) (f : KalmanFilter D) :
  get_entry (state_transition f) 0 2 = Ok a ->
  get_entry (state_transition f) 1 3 = Ok b ->
  rows (observation f) = 2%nat ->
  cols (observation f) = 1%nat ->
  exists f1,
    set_seconds_per_timestep s f = (Ok tt, f1)
    /\ forall update : M D unit,
         update_velocity2d update lat lon s f
         = update (with_observation
                     {| rows := 2; cols := 1;
                        data := [[lat * lit 1000]; [lon * lit 1000]]%D |} f1).
Proof.
  intros Ha Hb Hr Hc.
  destruct (set_seconds_per_timestep_run s a b f Ha Hb) as (m & Run & _).
  eexists. split; [exact Run|]. intros update.
  unfold update_velocity2d, bind. rewrite Run.
  unfold in_place, set_matrix. simpl observation. rewrite Hr, Hc. simpl.
  reflexivity.
Qed.

(** C5.  On a filter whose transition matrix holds the entries (0,2) and
    (1,3) and whose observation matrix is 2x1, [update_velocity2d lat lon s]
    first sets the time step from [s]: it reaches a filter [f1] that differs
    from [f] in the transition matrix only, where the entries (0,2) and (1,3)
    are now [0.001 * s].  It then stores the observation
    [[lat * 1000; lon * 1000]]: it reaches a filter [f2] that differs from
    [f1] in the observation only, so that [f2] holds the new time step too.
    Its outcome is that of one run of [update] on [f2], whatever [update]
    is. *)
Theorem update_velocity2d_steps (lat lon s a b : D) (f : KalmanFilter D) :
  get_entry (state_transition f) 0 2 = Ok a ->
  get_entry (state_transition f) 1 3 = Ok b ->
  rows (observation f) = 2%nat ->
  cols (observation f) = 1%nat ->
  exists f1 f2,
    set_seconds_per_timestep s f = (Ok tt, f1)
    /\ f1 = with_state_transition (state_transition f1) f
    /\ get_entry (state_transition f1) 0 2 = Ok (lit 0.001 * s)%D
    /\ get_entry (state_transition f1) 1 3 = Ok (lit 0.001 * s)%D
    /\ in_place observation with_observation
         (fun m => set_matrix m [lat * lit 1000; lon * lit 1000]%D) f1
       = (Ok tt, f2)
    /\ f2 = with_observation (observation f2) f1
    /\ observation f2
       = {| rows := 2; cols := 1;
            data := [[lat * lit 1000]; [lon * lit 1000]]%D |}
    /\ get_entry (state_transition f2) 0 2 = Ok (lit 0.001 * s)%D
    /\ get_entry (state_transition f2) 1 3 = Ok (lit 0.001 * s)%D
    /\ forall update : M D unit,
         update_velocity2d update lat lon s f = update f2.
Proof.
  intros Ha Hb Hr Hc.
  destruct (update_velocity2d_run lat lon s a b f Ha Hb Hr Hc)
    as (f1 & Run & Call).
  destruct (set_seconds_per_timestep_run s a b f Ha Hb)
    as (m & Run' & _ & _ & G02 & G13 & _).
  assert (f1 = with_state_transition m f) as -> by congruence.
  eexists. eexists. split; [exact Run|].
  split; [reflexivity|]. split; [exact G02|]. split; [exact G13|]. split.
  - unfold in_place, set_matrix. simpl observation. rewrite Hr, Hc. simpl.
    reflexivity.
  - simpl. split; [reflexivity|]. split; [reflexivity|].
    split; [exact G02|]. split; [exact G13|]. exact Call.
Qed.


End Observation.

(** The second fix of a track, two and a half seconds after the first. *)
Lemma update_velocity2d_steps_example :
  exists f : KalmanFilter float,
    GPSFilter 1%float = Ok f
    /\ exists f1 f2,
      set_seconds_per_timestep 2.5%float f = (Ok tt, f1)
      /\ f1 = with_state_transition (state_transition f1) f
      /\ get_entry (state_transition f1) 0 2 = Ok (lit 0.001 * 2.5%float)%D
      /\ get_entry (state_transition f1) 1 3 = Ok (lit 0.001 * 2.5%float)%D
      /\ in_place observation with_observation
           (fun m => set_matrix m [40.0001%float * lit 1000;
                                   (-75)%float * lit 1000]%D) f1
         = (Ok tt, f2)
      /\ f2 = with_observation (observation f2) f1
      /\ observation f2
         = {| rows := 2; cols := 1;
              data := [[40.0001%float * lit 1000];
                       [(-75)%float * lit 1000]]%D |}
      /\ get_entry (state_transition f2) 0 2 = Ok (lit 0.001 * 2.5%float)%D
      /\ get_entry (state_transition f2) 1 3 = Ok (lit 0.001 * 2.5%float)%D
      /\ forall update : M float unit,
           update_velocity2d update 40.0001%float (-75)%float 2.5%float f
           = update f2.
Proof.
  eexists. split; [vm_compute; reflexivity|].
  eapply update_velocity2d_steps; vm_compute; reflexivity.
Defined.



(** ** The accessors *)

Section Accessors.
Context {D : Type} `{Arith D}.

(** Both accessors read the state estimate and leave the filter as it is. *)
Lemma accessors_run (f : KalmanFilter D) (x y vx vy : D) :
  get_entry (state_estimate f) 0 0 = Ok x ->
  get_entry (state_estimate f) 1 0 = Ok y ->
  get_entry (state_estimate f) 2 0 = Ok vx ->
  get_entry (state_estimate f) 3 0 = Ok vy ->
  get_lat_long f = (Ok (x / lit 1000, y / lit 1000)%D, f)
  /\ get_velocity f
     = (Ok (vx / (lit 1000 * lit 1000), vy / (lit 1000 * lit 1000))%D, f).
Proof.
  intros Hx Hy Hvx Hvy.
  unfold get_lat_long, get_velocity, bind, read, ret.
  rewrite Hx, Hy, Hvx, Hvy. split; reflexivity.
Qed.

(** [get_bearing] is its two loops, run on [bearing_before_loops]; the filter
    is left as it is. *)
Lemma get_bearing_loops `{Libm D} (fuel : nat) (f : KalmanFilter D)
    (x y vx vy : D) :
  get_entry (state_estimate f) 0 0 = Ok x ->
  get_entry (state_estimate f) 1 0 = Ok y ->
  get_entry (state_estimate f) 2 0 = Ok vx ->
  get_entry (state_estimate f) 3 0 = Ok vy ->
  get_bearing fuel f
  = (result_bind
       (while_ge_360 fuel
          (bearing_before_loops (x / lit 1000) (y / lit 1000)
             (vx / (lit 1000 * lit 1000)) (vy / (lit 1000 * lit 1000)))%D)
       (while_lt_0 fuel), f).
Proof.
  intros Hx Hy Hvx Hvy.
  destruct (accessors_run f x y vx vy Hx Hy Hvx Hvy) as [Hp Hv].
  unfold get_bearing, bind, lift, ret. rewrite Hp, Hv. cbn [fst snd].
  destruct (while_ge_360 fuel _) as [b|e]; [|reflexivity].
  cbn [result_bind]. destruct (while_lt_0 fuel b); reflexivity.
Qed.

End Accessors.

(** ** The constructor and the accessors in binary64 *)

(** The decimal literals of the code, as doubles. *)
Lemma literals_binary64 :
  (lit 0.001 : float) = 0.001%float
  /\ (lit 0.000001 : float) = 0.000001%float
  /\ (lit 1000 : float) = 1000%float
  /\ (lit 1000 * lit 1000 : float)%D = 1e6%float
  /\ (lit 1000 * lit 1000 * lit 1000 * lit 1000 : float)%D = 1e12%float
  /\ (PI : float) = 3.14159265%float
  /\ (EARTH_RADIUS_IN_MILES : float) = 3963.1676%float.
Proof. repeat split; reflexivity. Qed.

(** C4.  The filter of a new [GPSFilter(noise)]: observation noise
    [diag(1e-6 * noise, 1e-6 * noise)], process noise [diag(1e-6, 1e-6, 1, 1)],
    a zero state estimate and [1e12] times the identity as its covariance. *)
Theorem GPSFilter_initial_configuration (noise : float) :
  exists f : KalmanFilter float,
    GPSFilter noise = Ok f
    /\ observation_noise_covariance f
       = {| rows := 2; cols := 2;
            data := [[1e-6 * noise; 0]; [0; 1e-6 * noise]]%float |}
    /\ process_noise_covariance f
       = {| rows := 4; cols := 4;
            data := [[1e-6; 0; 0; 0];
                     [0; 1e-6; 0; 0];
                     [0; 0; 1; 0];
                     [0; 0; 0; 1]]%float |}
    /\ state_estimate f
       = {| rows := 4; cols := 1; data := [[0]; [0]; [0]; [0]]%float |}
    /\ estimate_covariance f
       = {| rows := 4; cols := 4;
            data := [[1e12; 0; 0; 0];
                     [0; 1e12; 0; 0];
                     [0; 0; 1e12; 0];
                     [0; 0; 0; 1e12]]%float |}.
Proof.
  eexists. split; [vm_compute; reflexivity|].
  repeat split; vm_compute; reflexivity.
Qed.

(** C7.  [get_lat_long] returns the first two entries of the state estimate
    divided by 1000, [get_velocity] the last two divided by 1e6, and both
    leave the filter as it was. *)
Theorem accessors_read_state_estimate (f : KalmanFilter float) (x y vx vy : float) :
  get_entry (state_estimate f) 0 0 = Ok x ->
  get_entry (state_estimate f) 1 0 = Ok y ->
  get_entry (state_estimate f) 2 0 = Ok vx ->
  get_entry (state_estimate f) 3 0 = Ok vy ->
  get_lat_long f = (Ok (x / 1000, y / 1000)%float, f)
  /\ get_velocity f = (Ok (vx / 1e6, vy / 1e6)%float, f).
Proof.
  intros Hx Hy Hvx Hvy.
  destruct (accessors_run f x y vx vy Hx Hy Hvx Hvy) as [-> ->].
  split; reflexivity.
Qed.

(** A filter whose estimate is 40.0002 N, 75 W, moving north. *)
Lemma accessors_read_state_estimate_example :
  exists f : KalmanFilter float,
    GPSFilter 1%float = Ok f
    /\ let g := with_state_estimate
                  {| rows := 4; cols := 1;
                     data := [[40000.2]; [-75000]; [100]; [0]]%float |} f in
       get_lat_long g = (Ok (40000.2 / 1000, -75000 / 1000)%float, g)
       /\ get_velocity g = (Ok (100 / 1e6, 0 / 1e6)%float, g).
Proof.
  eexists. split; [vm_compute; reflexivity|].
  apply accessors_read_state_estimate; reflexivity.
Defined.

(** In binary64 the bounds proved over the reals further down hold up to
    rounding only.  A bearing of about -5.7e-17 degrees, a course a hair west
    of north, passes the first loop of [get_bearing]; the second loop adds
    360, the sum rounds to 360, and this value, which the first loop would
    have reduced, is what the loops return. *)
Remark loops_binary64_round_to_360 :
  result_bind (while_ge_360 1 (-5.729868856401683e-17)%float) (while_lt_0 1)
  = Ok 360%float
  /\ (360%float >=? lit 360)%D = true.
Proof. split; reflexivity. Qed.

(** So, whatever the functions of [<math.h>] are in binary64: when they give
    that bearing, [get_bearing] returns 360. *)
Remark get_bearing_binary64_360 (libm : Libm float) (f : KalmanFilter float)
    (x y vx vy : float) :
  get_entry (state_estimate f) 0 0 = Ok x ->
  get_entry (state_estimate f) 1 0 = Ok y ->
  get_entry (state_estimate f) 2 0 = Ok vx ->
  get_entry (state_estimate f) 3 0 = Ok vy ->
  bearing_before_loops (x / 1000)%float (y / 1000)%float
    (vx / 1e6)%float (vy / 1e6)%float
  = (-5.729868856401683e-17)%float ->
  get_bearing 1 f = (Ok 360%float, f).
Proof.
  intros Hx Hy Hvx Hvy Hb.
  rewrite (get_bearing_loops 1 f x y vx vy Hx Hy Hvx Hvy).
  change (bearing_before_loops _ _ _ _)
    with (bearing_before_loops (x / 1000)%float (y / 1000)%float
            (vx / 1e6)%float (vy / 1e6)%float).
  rewrite Hb. reflexivity.
Qed.

(** ** The bearing and the speed, in every arithmetic *)

(** The two methods are stated for every reading of [double] and every
    [sin], [cos], [sqrt] and [atan2]: in particular for binary64 with the
    functions of any C library. *)

Section Kinematics.
Context {D : Type} `{Arith D} `{Libm D}.





End Kinematics.



(** ** Two states in binary64 *)

(** The functions of [<math.h>] have no definition here.  At a given state
    the code calls them at a handful of arguments; the two statements below
    hold for every C library that returns, at those arguments, the doubles
    listed. *)

(** C10 at a failing input.  At 40.0002 N, 75 W, moving north and a hair
    west: [atan2] gives a bearing of about -7.7e-17 radians, -4.4e-15
    degrees.  The first loop lets it pass; the second adds 360, the sum
    rounds to 360, and [get_bearing] returns 360, a value the first loop
    would still reduce. *)
Theorem get_bearing_returns_360 :
  exists f : KalmanFilter float,
    GPSFilter 1%float = Ok f
    /\ let g := with_state_estimate
                  {| rows := 4; cols := 1;
                     data := [[40000.2]; [-75000]; [100]; [-1e-14]]%float |} f in
       forall libm : Libm float,
         dsin (-0x1.a5fea5e458ca2p-73)%float = (-0x1.a5fea5e458ca2p-73)%float ->
         dcos (-0x1.a5fea5e458ca2p-73)%float = 1%float ->
         dsin 0x1.6571f9c821456p-1%float = 0x1.491bced7f424fp-1%float ->
         dcos 0x1.6571f9c821456p-1%float = 0x1.8836aee7a373dp-1%float ->
         dsin 0x1.6571bf37dda96p-1%float = 0x1.491ba1fb3d01bp-1%float ->
         dcos 0x1.6571bf37dda96p-1%float = 0x1.8836d48c82990p-1%float ->
         datan2 (-0x1.43440906c88c9p-73)%float 0x1.d4821cdfc0000p-20%float
         = (-0x1.61464cdbf0946p-54)%float ->
         bearing_before_loops (40000.2 / 1000)%float (-75000 / 1000)%float
           (100 / 1e6)%float (-1e-14 / 1e6)%float
         = (-0x1.3c4493a9778edp-48)%float
         /\ get_bearing 1 g = (Ok 360%float, g)
         /\ (360%float >=? lit 360)%D = true.
Proof.
  eexists. split; [vm_compute; reflexivity|].
  intros g libm Hsd Hcd Hsl Hcl Hsl1 Hcl1 Hat.
  assert (Hb : bearing_before_loops (40000.2 / 1000)%float
                 (-75000 / 1000)%float (100 / 1e6)%float (-1e-14 / 1e6)%float
               = (-0x1.3c4493a9778edp-48)%float).
  { cbv -[dsin dcos datan2]. rewrite Hsd, Hcd, Hsl, Hcl, Hsl1, Hcl1.
    cbv -[datan2]. rewrite Hat. reflexivity. }
  split; [exact Hb|]. split; [|reflexivity].
  rewrite (get_bearing_loops 1 g 40000.2%float (-75000)%float 100%float
             (-1e-14)%float) by reflexivity.
  change (bearing_before_loops _ _ _ _)
    with (bearing_before_loops (40000.2 / 1000)%float (-75000 / 1000)%float
            (100 / 1e6)%float (-1e-14 / 1e6)%float).
  rewrite Hb. reflexivity.
Qed.

(** C8 at a failing input.  At 60 S on the prime meridian, with a velocity
    of 60 degrees north and 180 degrees west: the haversine [a] comes out as
    [-2^-55], its square root is not a number, and neither is the speed
    [get_mph] returns. *)
Theorem get_mph_returns_nan :
  exists f : KalmanFilter float,
    GPSFilter 1%float = Ok f
    /\ let g := with_state_estimate
                  {| rows := 4; cols := 1;
                     data := [[-60000]; [0]; [60000000]; [-180000000]]%float |}
                  f in
       forall libm : Libm float,
         dsin 0x1.0c15237db38a1p-1%float = 0x1.fffffff719300p-2%float ->
         dsin (-0x1.921fb53c8d4f1p+0)%float = (-1)%float ->
         dcos (-0x1.0c15237db38a1p+1)%float = (-0x1.ffffffdc64c01p-2)%float ->
         dcos (-0x1.0c15237db38a1p+0)%float = 0x1.00000008e6d00p-1%float ->
         dsqrt (-0x1p-55)%float = nan ->
         dsqrt 1%float = 1%float ->
         datan2 nan 1000%float = nan ->
         haversine_a (-60000 / 1000)%float (0 / 1000)%float
           (60000000 / 1e6)%float (-180000000 / 1e6)%float
         = (-0x1p-55)%float
         /\ get_mph g = (Ok nan, g)
         /\ (nan <? 0)%float = false
         /\ (0 <=? nan)%float = false.
Proof.
  eexists. split; [vm_compute; reflexivity|].
  intros g libm Hs1 Hs2 Hc1 Hc Hsa Hsb Hat.
  assert (Ha : haversine_a (-60000 / 1000)%float (0 / 1000)%float
                 (60000000 / 1e6)%float (-180000000 / 1e6)%float
               = (-0x1p-55)%float).
  { cbv -[dsin dcos]. rewrite Hs1, Hs2, Hc1, Hc. reflexivity. }
  split; [exact Ha|]. split; [|split; reflexivity].
  destruct (accessors_run g (-60000)%float 0%float 60000000%float
              (-180000000)%float) as [Hp Hv]; try reflexivity.
  unfold get_mph, bind, ret. rewrite Hp, Hv. cbn [fst snd].
  unfold calculate_mph.
  change (haversine_a _ _ _ _)
    with (haversine_a (-60000 / 1000)%float (0 / 1000)%float
            (60000000 / 1e6)%float (-180000000 / 1e6)%float).
  rewrite Ha. unfold radians_per_second.
  cbv -[dsqrt datan2]. rewrite Hsa, Hsb.
  cbv -[datan2]. cbv -[datan2] in Hat. rewrite Hat. reflexivity.
Qed.

(** ** Exact arithmetic: what the formulas mean *)

Section Real.
Local Open Scope R_scope.
Local Abbreviation pi := Rtrigo1.PI.

(** *** [atan2] *)

Lemma atan_nonneg (t : R) : 0 <= t -> 0 <= atan t.
Proof.
  intros [Ht| <-].
  - left. rewrite <- atan_0. apply atan_increasing. exact Ht.
  - rewrite atan_0. lra.
Qed.

Lemma atan_nonpos (t : R) : t <= 0 -> atan t <= 0.
Proof.
  intros [Ht| ->].
  - left. rewrite <- atan_0. apply atan_increasing. exact Ht.
  - rewrite atan_0. lra.
Qed.

Lemma atan_pos (t : R) : 0 < t -> 0 < atan t.
Proof. intros Ht. rewrite <- atan_0. apply atan_increasing. exact Ht. Qed.

Lemma quotient_nonneg (y x : R) : 0 <= y -> 0 < x -> 0 <= y / x.
Proof.
  intros Hy Hx. unfold Rdiv.
  pose proof (Rinv_0_lt_compat x Hx). nra.
Qed.

Lemma quotient_nonpos (y x : R) : 0 <= y -> x < 0 -> y / x <= 0.
Proof.
  intros Hy Hx. unfold Rdiv.
  pose proof (Rinv_lt_0_compat x Hx). nra.
Qed.

Lemma quotient_pos (y x : R) : y < 0 -> x < 0 -> 0 < y / x.
Proof.
  intros Hy Hx. unfold Rdiv.
  pose proof (Rinv_lt_0_compat x Hx). nra.
Qed.

(** The value of [atan2] is an angle in [(-pi, pi]]. *)
Lemma atan2_bounds (y x : R) : - pi < atan2 y x <= pi.
Proof.
  pose proof PI_RGT_0 as Hpi. pose proof (atan_bound (y / x)) as Hb.
  unfold atan2.
  destruct (Rlt_dec 0 x) as [Hx|Hx]; [lra|].
  destruct (Rlt_dec x 0) as [Hx'|Hx'].
  - destruct (Rle_dec 0 y) as [Hy|Hy].
    + pose proof (atan_nonpos _ (quotient_nonpos y x Hy Hx')). lra.
    + assert (Hy' : y < 0) by lra.
      pose proof (atan_pos _ (quotient_pos y x Hy' Hx')). lra.
  - destruct (Rlt_dec 0 y); [lra|]. destruct (Rlt_dec y 0); lra.
Qed.

(** In the closed first quadrant the angle is not negative. *)
Lemma atan2_nonneg (y x : R) : 0 <= y -> 0 <= x -> 0 <= atan2 y x.
Proof.
  intros Hy Hx. pose proof PI_RGT_0 as Hpi. unfold atan2.
  destruct (Rlt_dec 0 x) as [Hx'|Hx'].
  - apply atan_nonneg, quotient_nonneg; assumption.
  - destruct (Rlt_dec x 0); [lra|].
    destruct (Rlt_dec 0 y); [lra|]. destruct (Rlt_dec y 0); lra.
Qed.

(** Scaling both arguments by a positive factor keeps the angle. *)
Lemma atan2_scale (k y x : R) : 0 < k -> atan2 (k * y) (k * x) = atan2 y x.
Proof.
  intros Hk. unfold atan2.
  assert (Hq : x <> 0 -> k * y / (k * x) = y / x) by (intros; field; lra).
  destruct (Rlt_dec 0 (k * x)) as [H1|H1], (Rlt_dec 0 x) as [H2|H2];
    try (exfalso; nra).
  - rewrite Hq by lra. reflexivity.
  - destruct (Rlt_dec (k * x) 0) as [H3|H3], (Rlt_dec x 0) as [H4|H4];
      try (exfalso; nra).
    + rewrite Hq by lra.
      destruct (Rle_dec 0 (k * y)), (Rle_dec 0 y);
        try (exfalso; nra); reflexivity.
    + destruct (Rlt_dec 0 (k * y)), (Rlt_dec 0 y); try (exfalso; nra);
        [reflexivity|].
      destruct (Rlt_dec (k * y) 0), (Rlt_dec y 0); try (exfalso; nra);
        reflexivity.
Qed.

(** *** The constructor *)

(** The configuration of the new filter, read over the reals. *)
Lemma GPSFilter_initial_configuration_real (noise : R) :
  exists f : KalmanFilter R,
    GPSFilter noise = Ok f
    /\ observation_noise_covariance f
       = {| rows := 2; cols := 2;
            data := [[0.000001 * noise; 0]; [0; 0.000001 * noise]] |}
    /\ process_noise_covariance f
       = {| rows := 4; cols := 4;
            data := [[0.000001; 0; 0; 0];
                     [0; 0.000001; 0; 0];
                     [0; 0; 1; 0];
                     [0; 0; 0; 1]] |}
    /\ state_estimate f
       = {| rows := 4; cols := 1; data := [[0]; [0]; [0]; [0]] |}
    /\ estimate_covariance f
       = {| rows := 4; cols := 4;
            data := [[1000000000000; 0; 0; 0];
                     [0; 1000000000000; 0; 0];
                     [0; 0; 1000000000000; 0];
                     [0; 0; 0; 1000000000000]] |}.
Proof.
  eexists. split; [lazy -[IZR Rdiv Rmult Rplus Rminus]; reflexivity|].
  cbn [observation_noise_covariance process_noise_covariance state_estimate
       estimate_covariance].
  split; [|split; [|split]]; f_equal;
    repeat match goal with
           | |- _ :: _ = _ :: _ => f_equal
           end; lra.
Qed.

(** *** The loops of [get_bearing] *)

Lemma while_ge_360_skip (fuel : nat) (b : R) :
  b < 360 -> while_ge_360 fuel b = Ok b.
Proof.
  intros Hb. destruct fuel; simpl;
    destruct (Rge_dec b (360 / 1)); try lra; reflexivity.
Qed.

Lemma while_lt_0_skip (fuel : nat) (b : R) :
  0 <= b -> while_lt_0 fuel b = Ok b.
Proof.
  intros Hb. destruct fuel; simpl;
    destruct (Rlt_dec b (0 / 1)); try lra; reflexivity.
Qed.

Lemma while_lt_0_once (fuel : nat) (b : R) :
  - 360 <= b < 0 -> while_lt_0 (S fuel) b = Ok (b + 360).
Proof.
  intros Hb. simpl. destruct (Rlt_dec b (0 / 1)); [|lra].
  rewrite while_lt_0_skip by (simpl; lra).
  simpl. f_equal. lra.
Qed.

(** *** The bearing *)

(** The value that reaches the loops is the initial bearing of the great
    circle, turned into degrees. *)
Lemma bearing_before_loops_real (lat lon delta_lat delta_lon : R) :
  bearing_before_loops lat lon delta_lat delta_lon
  = initial_bearing (radians lat - radians delta_lat) (radians lat)
      (radians delta_lon) / (3.14159265 / 180).
Proof.
  unfold bearing_before_loops, initial_bearing, radians, PI. simpl.
  replace (314159265 / 100000000 / (180 / 1)) with (3.14159265 / 180) by lra.
  reflexivity.
Qed.

(** [pi] to four decimals, from the series of [atan (1/3)] and [atan (1/7)]. *)
Lemma pi_upper_bound : pi < 3.1416.
Proof.
  destruct (PI_2_3_7_ineq 2) as [_ Hub].
  unfold sum_f_R0, tg_alt, PI_2_3_7_tg, Ratan_seq in Hub. simpl in Hub. lra.
Qed.

(** It lies within half a turn and a little: the code divides an angle of up
    to [pi] by a [PI] that is slightly smaller. *)
Lemma bearing_before_loops_range (lat lon delta_lat delta_lon : R) :
  - 180.001 < bearing_before_loops lat lon delta_lat delta_lon < 180.001.
Proof.
  rewrite bearing_before_loops_real. unfold initial_bearing.
  match goal with
  | |- context [atan2 ?y ?x] => pose proof (atan2_bounds y x) as Hb;
                               set (angle := atan2 y x) in *
  end.
  pose proof pi_upper_bound. lra.
Qed.

(** From a value in [(-360, 360)] the first loop does not run and the second
    runs once at most; the result is the value itself or the value plus 360,
    and lies in [[0, 360)]. *)
Lemma loops_run (fuel : nat) (b : R) :
  - 360 < b < 360 ->
  while_ge_360 0 b = Ok b
  /\ exists r,
       while_lt_0 1 b = Ok r
       /\ result_bind (while_ge_360 (S fuel) b) (while_lt_0 (S fuel)) = Ok r
       /\ 0 <= r < 360
       /\ (r = b \/ r = b + 360).
Proof.
  intros Hb. split; [apply while_ge_360_skip; lra|].
  rewrite while_ge_360_skip by lra. cbn [result_bind].
  destruct (Rlt_dec b 0) as [Hneg|Hpos].
  - exists (b + 360). rewrite !while_lt_0_once by lra.
    repeat split; lra.
  - exists b. rewrite !while_lt_0_skip by lra.
    repeat split; lra.
Qed.

(** The accessors in exact arithmetic. *)
Lemma accessors_run_real (f : KalmanFilter R) (x y vx vy : R) :
  get_entry (state_estimate f) 0 0 = Ok x ->
  get_entry (state_estimate f) 1 0 = Ok y ->
  get_entry (state_estimate f) 2 0 = Ok vx ->
  get_entry (state_estimate f) 3 0 = Ok vy ->
  get_lat_long f = (Ok (x / 1000, y / 1000), f)
  /\ get_velocity f = (Ok (vx / 1000000, vy / 1000000), f).
Proof.
  intros Hx Hy Hvx Hvy.
  destruct (accessors_run f x y vx vy Hx Hy Hvx Hvy) as [-> ->].
  split; repeat f_equal; simpl; lra.
Qed.


(** *** The speed *)

(** The haversine lies between 0 and 1, for all latitudes and longitudes. *)
Lemma haversine_bounds (lat1 lon1 lat2 lon2 : R) :
  0 <= haversine lat1 lon1 lat2 lon2 <= 1.
Proof.
  unfold haversine, Rsqr.
  set (u := (lat2 - lat1) / 2). set (v := (lon2 - lon1) / 2).
  assert (Hc : cos lat2 * cos lat1 + sin lat2 * sin lat1
               = 1 - 2 * sin u * sin u).
  { rewrite <- cos_minus, <- cos_2a_sin. f_equal. unfold u. lra. }
  pose proof (sin2_cos2 lat1) as H1. pose proof (sin2_cos2 lat2) as H2.
  pose proof (sin2_cos2 v) as Hv. unfold Rsqr in H1, H2, Hv.
  set (c1 := cos lat1) in *. set (s1 := sin lat1) in *.
  set (c2 := cos lat2) in *. set (s2 := sin lat2) in *.
  assert (HS : 0 <= sin v * sin v <= 1) by nra.
  set (S := sin v * sin v) in *.
  pose proof (Rle_0_sqr (c1 - c2)) as Dc. pose proof (Rle_0_sqr (c1 + c2)) as Sc.
  pose proof (Rle_0_sqr (s1 - s2)) as Ds. pose proof (Rle_0_sqr (s1 + s2)) as Ss.
  unfold Rsqr in Dc, Sc, Ds, Ss.
  assert (P1 : 0 <= 1 - c1 * c2 - s1 * s2) by lra.
  assert (P2 : 0 <= 1 + c1 * c2 - s1 * s2) by lra.
  assert (P3 : 0 <= 1 + c1 * c2 + s1 * s2) by lra.
  assert (P4 : 0 <= 1 - c1 * c2 + s1 * s2) by lra.
  assert (Q1 : 0 <= (1 - S) * (1 - c1 * c2 - s1 * s2))
    by (apply Rmult_le_pos; lra).
  assert (Q2 : 0 <= S * (1 + c1 * c2 - s1 * s2))
    by (apply Rmult_le_pos; lra).
  assert (Q3 : 0 <= (1 - S) * (1 + c1 * c2 + s1 * s2))
    by (apply Rmult_le_pos; lra).
  assert (Q4 : 0 <= S * (1 - c1 * c2 + s1 * s2))
    by (apply Rmult_le_pos; lra).
  replace (c1 * c2 * sin v * sin v) with (c1 * c2 * S) by (unfold S; ring).
  split; nra.
Qed.

(** The variable [a] of [calculate_mph] is the haversine between the point
    one velocity step back and the current point. *)
Lemma haversine_a_real (lat lon delta_lat delta_lon : R) :
  haversine_a lat lon delta_lat delta_lon
  = haversine (radians lat - radians delta_lat)
      (radians lon - radians delta_lon) (radians lat) (radians lon).
Proof.
  unfold haversine_a, haversine, radians, PI, Rsqr. simpl.
  set (c := 314159265 / 100000000 / (180 / 1)).
  replace (3.14159265 / 180) with c by (unfold c; lra).
  replace ((lat * c - (lat * c - delta_lat * c)) / 2)
    with (delta_lat * c / (2 / 1)) by lra.
  replace ((lon * c - (lon * c - delta_lon * c)) / 2)
    with (delta_lon * c / (2 / 1)) by lra.
  ring.
Qed.

(** The factor 1000 on both arguments of [atan2] cancels. *)
Lemma radians_per_second_real (a : R) :
  radians_per_second a = 2 * atan2 (R_sqrt.sqrt a) (R_sqrt.sqrt (1 - a)).
Proof.
  unfold radians_per_second. simpl.
  rewrite atan2_scale by lra.
  replace (1 / 1 - a) with (1 - a) by lra. lra.
Qed.

Lemma calculate_mph_real (lat lon delta_lat delta_lon : R) :
  calculate_mph lat lon delta_lat delta_lon
  = central_angle (radians lat - radians delta_lat)
      (radians lon - radians delta_lon) (radians lat) (radians lon)
    * 3963.1676 * 3600.
Proof.
  unfold calculate_mph, central_angle.
  rewrite radians_per_second_real, haversine_a_real.
  unfold EARTH_RADIUS_IN_MILES. simpl. lra.
Qed.

Lemma get_mph_run (f : KalmanFilter R) (x y vx vy : R) :
  get_entry (state_estimate f) 0 0 = Ok x ->
  get_entry (state_estimate f) 1 0 = Ok y ->
  get_entry (state_estimate f) 2 0 = Ok vx ->
  get_entry (state_estimate f) 3 0 = Ok vy ->
  get_mph f
  = (Ok (calculate_mph (x / 1000) (y / 1000) (vx / 1000000) (vy / 1000000)), f).
Proof.
  intros Hx Hy Hvx Hvy.
  destruct (accessors_run_real f x y vx vy Hx Hy Hvx Hvy) as [Hp Hv].
  unfold get_mph, bind, ret. rewrite Hp, Hv. reflexivity.
Qed.

(** *** Along a meridian *)

(** The constant [PI] of the code lies below [pi], by less than 1e-8. *)
Lemma pi_bounds : 3.14159265 < pi < 3.14159266.
Proof.
  destruct (PI_2_3_7_ineq 4) as [Hlb Hub].
  unfold sum_f_R0, tg_alt, PI_2_3_7_tg, Ratan_seq in Hlb, Hub.
  simpl in Hlb, Hub. split; lra.
Qed.



Lemma atan2_pos_0 (y : R) : 0 < y -> atan2 y 0 = pi / 2.
Proof.
  intros Hy. unfold atan2. destruct (Rlt_dec 0 0); [lra|].
  destruct (Rlt_dec 0 y); [reflexivity|lra].
Qed.



Lemma radians_0 (n : R) : radians (0 / n) = 0.
Proof. unfold radians, Rdiv. rewrite !Rmult_0_l. reflexivity. Qed.


(** [atan2 (sqrt a) (sqrt (1 - a))] gives back half the central angle from
    its haversine [a], up to a quarter turn either way. *)
Lemma half_angle (u : R) :
  - (pi / 2) <= u <= pi / 2 ->
  atan2 (R_sqrt.sqrt (sin u)²) (R_sqrt.sqrt (1 - (sin u)²)) = Rabs u.
Proof.
  intros Hu. pose proof PI_RGT_0 as Hpi.
  replace (1 - (sin u)²) with ((cos u)²) by (pose proof (sin2_cos2 u); lra).
  rewrite !sqrt_Rsqr_abs.
  assert (Hc : 0 <= cos u) by (apply cos_ge_0; lra).
  rewrite (Rabs_pos_eq (cos u)) by exact Hc.
  destruct (Req_dec u (pi / 2)) as [->|Hne1].
  { rewrite sin_PI2, cos_PI2, Rabs_R1, atan2_pos_0 by lra.
    rewrite Rabs_pos_eq by lra. reflexivity. }
  destruct (Req_dec u (- (pi / 2))) as [->|Hne2].
  { rewrite sin_neg, cos_neg, sin_PI2, cos_PI2, !Rabs_Ropp, Rabs_R1.
    rewrite atan2_pos_0 by lra. rewrite Rabs_pos_eq by lra. reflexivity. }
  assert (Hpos : 0 < cos u) by (apply cos_gt_0; lra).
  unfold atan2. destruct (Rlt_dec 0 (cos u)); [|lra].
  destruct (Rle_dec 0 u) as [Hu0|Hu0].
  - rewrite (Rabs_pos_eq (sin u)) by (apply sin_ge_0; lra).
    rewrite (Rabs_pos_eq u) by exact Hu0.
    change (sin u / cos u) with (tan u). apply atan_tan. lra.
  - assert (Hs : sin u < 0) by (apply sin_lt_0_var; lra).
    rewrite (Rabs_left (sin u)) by exact Hs.
    rewrite (Rabs_left u) by lra.
    replace (- sin u / cos u) with (- tan u) by (unfold tan; field; lra).
    rewrite atan_opp, atan_tan by lra. reflexivity.
Qed.

(** Between two points of one meridian the haversine is that of the
    difference in latitude. *)
Lemma haversine_meridian (lat lon d : R) :
  haversine (lat - d) lon lat lon = (sin (d / 2))².
Proof.
  unfold haversine.
  replace ((lat - (lat - d)) / 2) with (d / 2) by lra.
  replace ((lon - lon) / 2) with 0 by lra.
  rewrite sin_0, Rsqr_0. ring.
Qed.


(** Between two points of one meridian, half a turn apart at most, the
    central angle of the haversine formula is the difference in latitude. *)
Lemma central_angle_meridian (lat lon d : R) :
  - pi <= d <= pi ->
  central_angle (lat - d) lon lat lon = Rabs d.
Proof.
  intros Hd. unfold central_angle.
  rewrite haversine_meridian, half_angle by lra.
  unfold Rabs. destruct (Rcase_abs (d / 2)), (Rcase_abs d); lra.
Qed.

End Real.

(** ** Where binary64 and the formulas part *)



(** Where it returns a number, [get_mph] can be off by more than a rounding.
    At latitude 0, with a velocity of 180 degrees north, the haversine comes
    out as 1 and its complement as 0: [get_mph] returns 44822369.58..., the
    double nearest to [pi / 2] doubled and turned into miles.  With the [PI]
    of the code the step is one of 3.14159265 radians, for which the
    haversine formula gives 44822369.53... *)
Remark get_mph_half_turn :
  (exists f : KalmanFilter float,
     GPSFilter 1%float = Ok f
     /\ let g := with_state_estimate
                   {| rows := 4; cols := 1;
                      data := [[0]; [0]; [180000000]; [0]]%float |} f in
        forall libm : Libm float,
          dsin 0x1.921fb53c8d4f1p+0%float = 1%float ->
          dsin 0%float = 0%float ->
          dcos (-0x1.921fb53c8d4f1p+1)%float = (-1)%float ->
          dcos 0%float = 1%float ->
          dsqrt 1%float = 1%float ->
          dsqrt 0%float = 0%float ->
          datan2 1000%float 0%float = 0x1.921fb54442d18p+0%float ->
          get_mph g = (Ok 0x1.55f7b0ca7128bp+25%float, g)
          /\ (44822369.58 <? 0x1.55f7b0ca7128bp+25)%float = true)
  /\ (central_angle
        (radians (0 / 1000) - radians (180000000 / 1000000))
        (radians (0 / 1000) - radians (0 / 1000000))
        (radians (0 / 1000)) (radians (0 / 1000))
      * 3963.1676 * 3600 < 44822369.54)%R.
Proof.
  split.
  - eexists. split; [vm_compute; reflexivity|].
    intros g libm Hs1 Hs0 Hc1 Hc0 Hq1 Hq0 Hat. split; [|reflexivity].
    destruct (accessors_run g 0%float 0%float 180000000%float 0%float)
      as [Hp Hv]; try reflexivity.
    unfold get_mph, bind, ret. rewrite Hp, Hv. cbn [fst snd].
    cbv -[dsin dcos dsqrt datan2 g]. rewrite Hs1, Hs0, Hc1, Hc0.
    cbv -[dsqrt datan2 g]. rewrite Hq1, Hq0.
    cbv -[datan2 g]. rewrite Hat. reflexivity.
  - pose proof pi_bounds as Hpi.
    rewrite !radians_0, Rminus_0_r.
    rewrite central_angle_meridian by (unfold radians; lra).
    unfold radians, Rabs. destruct (Rcase_abs _); lra.
Qed.

(** C9, as the code has it.  In every arithmetic [calculate_mph] is the
    central angle with both arguments of [atan2] scaled by 1000, times the
    Earth radius, times 60, times 60.  That the factor 1000 cancels is a
    fact of exact arithmetic: there the scaled and the plain expression are
    equal for every [a] in [[0, 1]]. *)
Theorem calculate_mph_scaled :
  (forall (D : Type) (arith : Arith D) (libm : Libm D)
          (lat lon delta_lat delta_lon : D),
     let to_radians := (lit 3.14159265 / lit 180)%D in
     let a :=
       (dsin (delta_lat * to_radians / lit 2)
        * dsin (delta_lat * to_radians / lit 2)
        + dcos (lat * to_radians - delta_lat * to_radians)
          * dcos (lat * to_radians)
          * dsin (delta_lon * to_radians / lit 2)
          * dsin (delta_lon * to_radians / lit 2))%D in
     haversine_a lat lon delta_lat delta_lon = a
     /\ radians_per_second a
        = (lit 2 * datan2 (lit 1000 * dsqrt a) (lit 1000 * dsqrt (lit 1 - a)))%D
     /\ calculate_mph lat lon delta_lat delta_lon
        = (lit 2 * datan2 (lit 1000 * dsqrt a) (lit 1000 * dsqrt (lit 1 - a))
           * lit 3963.1676 * lit 60 * lit 60)%D)
  /\ (forall a : R,
        (0 <= a <= 1)%R ->
        (2 * atan2 (1000 * R_sqrt.sqrt a) (1000 * R_sqrt.sqrt (1 - a))
         = 2 * atan2 (R_sqrt.sqrt a) (R_sqrt.sqrt (1 - a)))%R).
Proof.
  split.
  - intros D arith libm lat lon delta_lat delta_lon to_radians a.
    repeat split; reflexivity.
  - intros a _. rewrite atan2_scale by lra. reflexivity.
Qed.

(** C9, as the specification has it, fails.  In binary64 the two products
    by 1000 are rounded, each on its own.  At [a = 0.1] the point
    [(316.2..., 948.6...)] given to [atan2] is not 1000 times the point
    [(0.316..., 0.948...)]; for a C library whose [sqrt] and [atan2] return
    the doubles listed, the scaled expression and the plain one differ in
    the last bit. *)
Lemma radians_per_second_rounds :
  ((0 <=? 0.1)%float = true /\ (0.1 <=? 1)%float = true)
  /\ forall libm : Libm float,
       dsqrt 0.1%float = 0x1.43d136248490fp-2%float ->
       dsqrt 0x1.ccccccccccccdp-1%float = 0x1.e5b9d136c6d96p-1%float ->
       datan2 0x1.3c3a4edfa9759p+8%float 0x1.da57764f7e304p+9%float
       = 0x1.4978fa3269ee2p-2%float ->
       datan2 0x1.43d136248490fp-2%float 0x1.e5b9d136c6d96p-1%float
       = 0x1.4978fa3269ee1p-2%float ->
       radians_per_second 0.1%float = 0x1.4978fa3269ee2p-1%float
       /\ (lit 2 * datan2 (dsqrt 0.1%float) (dsqrt (lit 1 - 0.1%float)))%D
          = 0x1.4978fa3269ee1p-1%float
       /\ (0x1.4978fa3269ee2p-1 =? 0x1.4978fa3269ee1p-1)%float = false.
Proof.
  split; [split; reflexivity|].
  intros libm Hq1 Hq9 Hscaled Hplain.
  split; [|split; [|reflexivity]].
  - cbv -[dsqrt datan2]. rewrite Hq1, Hq9.
    cbv -[datan2]. rewrite Hscaled. reflexivity.
  - cbv -[dsqrt datan2]. rewrite Hq1, Hq9. rewrite Hplain. reflexivity.
Qed.

(** * Further properties *)

(** ** The shape of the filter is an invariant *)

Section Shape.
Context {D : Type} `{Arith D}.

Lemma well_formed_spec (r c : nat) (m : Matrix D) :
  well_formed r c m = true <->
  rows m = r /\ cols m = c /\ length (data m) = r
  /\ Forall (fun row => length row = c) (data m).
Proof.
  unfold well_formed. rewrite !andb_true_iff, !Nat.eqb_eq.
  rewrite forallb_forall, Forall_forall.
  setoid_rewrite Nat.eqb_eq. setoid_rewrite list_elem_of_In. tauto.
Qed.

(** Inside a well-formed matrix every entry exists. *)
Lemma get_entry_well_formed (r c i j : nat) (m : Matrix D) :
  well_formed r c m = true -> (i < r)%nat -> (j < c)%nat ->
  exists x, get_entry m i j = Ok x.
Proof.
  intros Hwf Hi Hj. apply well_formed_spec in Hwf as (_ & _ & Hlen & Hrows).
  destruct (lookup_lt_is_Some_2 (data m) i) as [row Hrow]; [lia|].
  assert (Hc : length row = c).
  { eapply (proj1 (Forall_forall _ _) Hrows), list_elem_of_lookup_2, Hrow. }
  destruct (lookup_lt_is_Some_2 row j) as [x Hx]; [lia|].
  exists x. apply get_entry_Ok. eauto.
Qed.

(** A write keeps a matrix well formed. *)
Lemma set_entry_well_formed (r c i j : nat) (v : D) (m m' : Matrix D) :
  well_formed r c m = true -> set_entry i j v m = Ok m' ->
  well_formed r c m' = true.
Proof.
  intros Hwf Hset. apply well_formed_spec in Hwf as (Hr & Hc & Hlen & Hrows).
  unfold set_entry in Hset.
  destruct (data m !! i) as [row|] eqn:Hrow; [|discriminate].
  destruct (decide (j < length row)%nat); [|discriminate].
  injection Hset as <-. apply well_formed_spec. simpl.
  rewrite length_insert. repeat split; try assumption.
  apply Forall_insert; [assumption|]. rewrite length_insert.
  eapply (proj1 (Forall_forall _ _) Hrows), list_elem_of_lookup_2, Hrow.
Qed.

Lemma shaped_spec (f : KalmanFilter D) :
  shaped f = true <->
  state_dim f = 4%nat /\ obs_dim f = 2%nat
  /\ well_formed 4 4 (state_transition f) = true
  /\ well_formed 2 4 (observation_model f) = true
  /\ well_formed 4 4 (process_noise_covariance f) = true
  /\ well_formed 2 2 (observation_noise_covariance f) = true
  /\ well_formed 2 1 (observation f) = true
  /\ well_formed 4 1 (state_estimate f) = true
  /\ well_formed 4 4 (estimate_covariance f) = true.
Proof.
  unfold shaped. rewrite !andb_true_iff, !Nat.eqb_eq. tauto.
Qed.

(** X1.  Whatever the reading of [double] and whatever the noise, the
    constructor runs without an error and leaves a filter of the shape of
    [alloc_filter(4, 2)]. *)
Theorem GPSFilter_shaped (noise : D) :
  exists f, GPSFilter noise = Ok f /\ shaped f = true.
Proof. eexists. split; vm_compute; reflexivity. Qed.

Lemma set_seconds_per_timestep_keeps_shape (s : D) (f : KalmanFilter D) :
  shaped f = true ->
  exists f', set_seconds_per_timestep s f = (Ok tt, f') /\ shaped f' = true.
Proof.
  intros Hf. pose proof Hf as Hf'.
  apply shaped_spec in Hf' as (Hsd & Hod & Hst & Hrest).
  destruct (get_entry_well_formed 4 4 0 2 _ Hst) as [a Ha]; [lia|lia|].
  destruct (get_entry_well_formed 4 4 1 3 _ Hst) as [b Hb]; [lia|lia|].
  destruct (set_entry_spec 0 2 (lit 0.001 * s)%D a _ Ha)
    as (m1 & E1 & _ & _ & _ & F1).
  assert (Hb1 : get_entry m1 1 3 = Ok b) by (rewrite F1; [exact Hb|congruence]).
  destruct (set_entry_spec 1 3 (lit 0.001 * s)%D b _ Hb1) as (m2 & E2 & _).
  pose proof (set_entry_well_formed 4 4 _ _ _ _ _ Hst E1) as W1.
  pose proof (set_entry_well_formed 4 4 _ _ _ _ _ W1 E2) as W2.
  exists (with_state_transition m2 f). split.
  - unfold set_seconds_per_timestep, bind, in_place. rewrite E1. simpl.
    rewrite E2. reflexivity.
  - apply shaped_spec. simpl. tauto.
Qed.

(** X2.  On a filter of that shape [set_seconds_per_timestep] returns
    normally, whatever the seconds, and the filter keeps its shape. *)
Theorem set_seconds_per_timestep_shaped (s : D) (f : KalmanFilter D) :
  shaped f = true ->
  exists f', set_seconds_per_timestep s f = (Ok tt, f') /\ shaped f' = true.
Proof. apply set_seconds_per_timestep_keeps_shape. Qed.

End Shape.

(** The filter of a new [GPSFilter(1.0)], in binary64. *)
Lemma set_seconds_per_timestep_shaped_example :
  exists f : KalmanFilter float,
    GPSFilter 1%float = Ok f
    /\ exists f', set_seconds_per_timestep 2.5%float f = (Ok tt, f')
                  /\ shaped f' = true.
Proof.
  eexists. split; [vm_compute; reflexivity|].
  apply set_seconds_per_timestep_shaped. reflexivity.
Defined.

(** ** How the methods compose *)

Section Compose.
Context {D : Type} `{Arith D}.

(** A second write to the same entry makes the first one void. *)
Lemma set_entry_twice (i j : nat) (v1 v2 : D) (m m1 : Matrix D) :
  set_entry i j v1 m = Ok m1 ->
  set_entry i j v2 m1 = set_entry i j v2 m.
Proof.
  unfold set_entry. intros Hset.
  destruct (data m !! i) as [row|] eqn:Hrow; [|discriminate].
  destruct (decide (j < length row)%nat) as [Hj|]; [|discriminate].
  injection Hset as <-. simpl.
  assert (Hi : (i < length (data m))%nat) by (eapply lookup_lt_Some; eauto).
  rewrite list_lookup_insert_eq by assumption. rewrite length_insert.
  destruct (decide (j < length row)%nat); [|lia].
  rewrite !list_insert_insert_eq. reflexivity.
Qed.

(** Writes to different rows can be swapped. *)
Lemma set_entry_swap (i j i' j' : nat) (v v' : D) (m m1 m2 : Matrix D) :
  i <> i' ->
  set_entry i j v m = Ok m1 ->
  set_entry i' j' v' m1 = Ok m2 ->
  exists m1', set_entry i' j' v' m = Ok m1' /\ set_entry i j v m1' = Ok m2.
Proof.
  unfold set_entry. intros Hne H1 H2.
  destruct (data m !! i) as [row|] eqn:Hrow; [|discriminate].
  destruct (decide (j < length row)%nat) as [Hj|]; [|discriminate].
  injection H1 as <-. simpl in H2.
  rewrite list_lookup_insert_ne in H2 by assumption.
  destruct (data m !! i') as [row'|] eqn:Hrow'; [|discriminate].
  destruct (decide (j' < length row')%nat) as [Hj'|]; [|discriminate].
  injection H2 as <-. eexists. split; [reflexivity|]. simpl.
  rewrite list_lookup_insert_ne by congruence. rewrite Hrow.
  destruct (decide (j < length row)%nat); [|lia].
  rewrite list_insert_insert_ne by congruence. reflexivity.
Qed.

(** X3.  The time step that is set last is the one that counts: on a filter
    of the shape of [alloc_filter(4, 2)], setting [s1] and then [s2] leaves
    the very filter that setting [s2] alone leaves. *)
Theorem set_seconds_per_timestep_twice (s1 s2 : D) (f : KalmanFilter D) :
  shaped f = true ->
  exists f1 f2,
    set_seconds_per_timestep s1 f = (Ok tt, f1)
    /\ set_seconds_per_timestep s2 f1 = (Ok tt, f2)
    /\ set_seconds_per_timestep s2 f = (Ok tt, f2).
Proof.
  intros Hf.
  destruct (set_seconds_per_timestep_keeps_shape s1 f Hf) as (f1 & Run1 & Hf1).
  destruct (set_seconds_per_timestep_keeps_shape s2 f1 Hf1) as (f2 & Run2 & _).
  exists f1, f2. split; [exact Run1|]. split; [exact Run2|].
  revert Run1 Run2. unfold set_seconds_per_timestep, bind, in_place.
  set (v1 := (lit 0.001 * s1)%D). set (v2 := (lit 0.001 * s2)%D).
  destruct (set_entry 0 2 v1 (state_transition f)) as [m1|] eqn:A1;
    [|discriminate].
  simpl. destruct (set_entry 1 3 v1 m1) as [m2|] eqn:A2; [|discriminate].
  intros [= <-]. simpl.
  destruct (set_entry 0 2 v2 m2) as [m3|] eqn:A3; [|discriminate].
  simpl. destruct (set_entry 1 3 v2 m3) as [m4|] eqn:A4; [|discriminate].
  intros [= <-].
  destruct (set_entry_swap 0 2 1 3 v1 v1 _ _ _ ltac:(lia) A1 A2)
    as (p & P1 & P2).
  rewrite (set_entry_twice 0 2 v1 v2 p m2 P2) in A3.
  destruct (set_entry_swap 1 3 0 2 v1 v2 _ _ _ ltac:(lia) P1 A3)
    as (q & Q1 & Q2).
  rewrite (set_entry_twice 1 3 v1 v2 q m3 Q2) in A4.
  rewrite Q1. simpl. rewrite A4. reflexivity.
Qed.

(** X4.  [update_velocity2d] touches the time step and the observation only.
    On a filter of the shape of [alloc_filter(4, 2)] it raises no error of
    its own, whatever the fix: the call is one run of [update], on a filter
    that has kept its shape, its state estimate, the covariance of the
    estimate, the observation model and both noise covariances.  If [update]
    keeps the shape, so does the call. *)
Theorem update_velocity2d_frame (lat lon s : D) (f : KalmanFilter D) :
  shaped f = true ->
  exists f',
    (forall update : M D unit,
       update_velocity2d update lat lon s f = update f')
    /\ shaped f' = true
    /\ state_estimate f' = state_estimate f
    /\ estimate_covariance f' = estimate_covariance f
    /\ observation_model f' = observation_model f
    /\ process_noise_covariance f' = process_noise_covariance f
    /\ observation_noise_covariance f' = observation_noise_covariance f
    /\ forall update : M D unit,
         (forall g, shaped g = true -> shaped (snd (update g)) = true) ->
         shaped (snd (update_velocity2d update lat lon s f)) = true.
Proof.
  intros Hf. pose proof Hf as Hf'.
  apply shaped_spec in Hf' as (Hsd & Hod & Hst & Hom & Hpn & Hon & Hob & Hrest).
  destruct (get_entry_well_formed 4 4 0 2 _ Hst) as [a Ha]; [lia|lia|].
  destruct (get_entry_well_formed 4 4 1 3 _ Hst) as [b Hb]; [lia|lia|].
  apply well_formed_spec in Hob as (Hr & Hc & _).
  destruct (update_velocity2d_run lat lon s a b f Ha Hb Hr Hc)
    as (f1 & Run & Call).
  destruct (set_seconds_per_timestep_keeps_shape s f Hf) as (f1' & Run' & Hf1).
  assert (f1' = f1) as -> by congruence.
  destruct (set_seconds_per_timestep_run s a b f Ha Hb) as (m & Run'' & _).
  assert (Hshape : shaped
            (with_observation
               {| rows := 2; cols := 1;
                  data := [[lat * lit 1000]; [lon * lit 1000]]%D |} f1) = true).
  { apply shaped_spec in Hf1. apply shaped_spec. simpl.
    repeat split; try tauto. }
  eexists. split; [exact Call|]. split; [exact Hshape|].
  assert (f1 = with_state_transition m f) as -> by congruence.
  simpl. repeat split.
  intros update Hkeep. rewrite Call. apply Hkeep. exact Hshape.
Qed.

(** X5.  The four methods that report on the filter read it and leave it as
    it is.  On a filter of the shape of [alloc_filter(4, 2)] no read falls
    outside a matrix: [get_lat_long], [get_velocity] and [get_mph] return a
    value, and [get_bearing] returns one unless a loop outruns its budget. *)
Theorem readers_keep_filter `{Libm D} (f : KalmanFilter D) :
  shaped f = true ->
  (exists position, get_lat_long f = (Ok position, f))
  /\ (exists velocity, get_velocity f = (Ok velocity, f))
  /\ (exists mph, get_mph f = (Ok mph, f))
  /\ forall fuel,
       (exists bearing, get_bearing fuel f = (Ok bearing, f))
       \/ get_bearing fuel f = (Err OutOfFuel, f).
Proof.
  intros Hf.
  apply shaped_spec in Hf as (_ & _ & _ & _ & _ & _ & _ & Hse & _).
  destruct (get_entry_well_formed 4 1 0 0 _ Hse) as [x Hx]; [lia|lia|].
  destruct (get_entry_well_formed 4 1 1 0 _ Hse) as [y Hy]; [lia|lia|].
  destruct (get_entry_well_formed 4 1 2 0 _ Hse) as [vx Hvx]; [lia|lia|].
  destruct (get_entry_well_formed 4 1 3 0 _ Hse) as [vy Hvy]; [lia|lia|].
  destruct (accessors_run f x y vx vy Hx Hy Hvx Hvy) as [Hp Hv].
  split; [eauto|]. split; [eauto|]. split.
  - unfold get_mph, bind, ret. rewrite Hp, Hv. eauto.
  - intros fuel. rewrite (get_bearing_loops fuel f x y vx vy Hx Hy Hvx Hvy).
    destruct (while_ge_360 fuel _) as [b|e] eqn:Hge; cbn [result_bind].
    + destruct (while_lt_0 fuel b) as [r|e] eqn:Hlt; [eauto|].
      right. f_equal. f_equal.
      clear -Hlt. revert b Hlt.
      induction fuel as [|fuel IH]; intros b; simpl;
        destruct (b <? lit 0)%D; try congruence; eauto.
    + right. f_equal. f_equal.
      clear -Hge. revert Hge. generalize (bearing_before_loops
        (x / lit 1000) (y / lit 1000) (vx / (lit 1000 * lit 1000))
        (vy / (lit 1000 * lit 1000)))%D.
      induction fuel as [|fuel IH]; intros b; simpl;
        destruct (b >=? lit 360)%D; try congruence; eauto.
Qed.

End Compose.

Lemma set_seconds_per_timestep_twice_example :
  exists f : KalmanFilter float,
    GPSFilter 1%float = Ok f
    /\ exists f1 f2,
      set_seconds_per_timestep 2.5%float f = (Ok tt, f1)
      /\ set_seconds_per_timestep 0.5%float f1 = (Ok tt, f2)
      /\ set_seconds_per_timestep 0.5%float f = (Ok tt, f2).
Proof.
  eexists. split; [vm_compute; reflexivity|].
  apply set_seconds_per_timestep_twice. reflexivity.
Defined.

Lemma update_velocity2d_frame_example :
  exists f : KalmanFilter float,
    GPSFilter 1%float = Ok f
    /\ exists f',
      (forall update : M float unit,
         update_velocity2d update 40.0001%float (-75)%float 1%float f
         = update f')
      /\ shaped f' = true
      /\ state_estimate f' = state_estimate f
      /\ estimate_covariance f' = estimate_covariance f
      /\ observation_model f' = observation_model f
      /\ process_noise_covariance f' = process_noise_covariance f
      /\ observation_noise_covariance f' = observation_noise_covariance f
      /\ forall update : M float unit,
           (forall g, shaped g = true -> shaped (snd (update g)) = true) ->
           shaped (snd (update_velocity2d update 40.0001%float (-75)%float
                          1%float f)) = true.
Proof.
  eexists. split; [vm_compute; reflexivity|].
  apply update_velocity2d_frame. reflexivity.
Defined.

Lemma readers_keep_filter_example :
  exists f : KalmanFilter R,
    GPSFilter 1%R = Ok f
    /\ (exists position, get_lat_long f = (Ok position, f))
    /\ (exists velocity, get_velocity f = (Ok velocity, f))
    /\ (exists mph, get_mph f = (Ok mph, f))
    /\ forall fuel,
         (exists bearing, get_bearing fuel f = (Ok bearing, f))
         \/ get_bearing fuel f = (Err OutOfFuel, f).
Proof.
  eexists. split; [lazy -[IZR Rdiv Rmult Rplus Rminus]; reflexivity|].
  apply readers_keep_filter. reflexivity.
Defined.

(** ** The motion model of the constructor *)

(** X6.  Besides what the noise decides, the filter of a new
    [GPSFilter(noise)] holds, in binary64 and whatever the noise: a
    transition matrix that is the identity with 0.001 (one second) in the
    entries (0,2) and (1,3), an observation model that picks the two
    position entries of the state, and a zero observation. *)
Theorem GPSFilter_motion_model (noise : float) :
  exists f : KalmanFilter float,
    GPSFilter noise = Ok f
    /\ state_transition f
       = {| rows := 4; cols := 4;
            data := [[1; 0; 0.001; 0];
                     [0; 1; 0; 0.001];
                     [0; 0; 1; 0];
                     [0; 0; 0; 1]]%float |}
    /\ observation_model f
       = {| rows := 2; cols := 4;
            data := [[1; 0; 0; 0];
                     [0; 1; 0; 0]]%float |}
    /\ observation f
       = {| rows := 2; cols := 1; data := [[0]; [0]]%float |}.
Proof.
  eexists. split; [vm_compute; reflexivity|].
  repeat split; vm_compute; reflexivity.
Qed.

(** ** At rest, and east or west *)

(** Two properties in exact arithmetic.  Neither rests on a bound that
    rounding could break: at rest every product and difference is zero,
    and the mirror image of a velocity changes the sign of one sine
    only. *)

Section Rest.
Local Open Scope R_scope.


(** X15.  The speed does not depend on the longitude, nor on whether the
    eastward velocity points east or west. *)
Theorem get_mph_mirror (f g : KalmanFilter R) (x y y' vx vy : R) :
  get_entry (state_estimate f) 0 0 = Ok x ->
  get_entry (state_estimate f) 1 0 = Ok y ->
  get_entry (state_estimate f) 2 0 = Ok vx ->
  get_entry (state_estimate f) 3 0 = Ok vy ->
  get_entry (state_estimate g) 0 0 = Ok x ->
  get_entry (state_estimate g) 1 0 = Ok y' ->
  get_entry (state_estimate g) 2 0 = Ok vx ->
  get_entry (state_estimate g) 3 0 = Ok (- vy) ->
  exists mph, get_mph f = (Ok mph, f) /\ get_mph g = (Ok mph, g).
Proof.
  intros Hx Hy Hvx Hvy Gx Gy Gvx Gvy.
  rewrite (get_mph_run f x y vx vy Hx Hy Hvx Hvy).
  rewrite (get_mph_run g x y' vx (- vy) Gx Gy Gvx Gvy).
  eexists. split; [reflexivity|]. f_equal. f_equal.
  rewrite !calculate_mph_real. unfold central_angle, haversine.
  replace ((radians (y' / 1000)
            - (radians (y' / 1000) - radians (- vy / 1000000))) / 2)
    with (- ((radians (y / 1000)
              - (radians (y / 1000) - radians (vy / 1000000))) / 2))
    by (unfold radians; lra).
  rewrite sin_neg, <- Rsqr_neg. reflexivity.
Qed.

End Rest.


(** North-east at 75 W and north-west at 10 E. *)
Lemma get_mph_mirror_example :
  exists f : KalmanFilter R,
    GPSFilter 1%R = Ok f
    /\ let g := with_state_estimate
                  {| rows := 4; cols := 1;
                     data := [[40000.2]; [-75000]; [100]; [50]]%R |} f in
       let h := with_state_estimate
                  {| rows := 4; cols := 1;
                     data := [[40000.2]; [10000]; [100]; [Ropp 50]]%R |} f in
       exists mph, get_mph g = (Ok mph, g) /\ get_mph h = (Ok mph, h).
Proof.
  eexists. split; [lazy -[IZR Rdiv Rmult Rplus Rminus]; reflexivity|].
  apply (get_mph_mirror _ _ 40000.2%R (-75000)%R 10000%R 100%R 50%R);
    reflexivity.
Defined.

(** ** Reading the input file *)

Section Reading.
Context {D : Type}.
Variable fscanf : list ascii -> @scan D * nat.

(** A line that was skipped ends in the line feed that was read last. *)
Lemma skip_line_Some (file file' : list ascii) :
  skip_line file = Some file' ->
  exists line, file = line ++ "010"%char :: file'.
Proof.
  induction file as [|ch file IH]; simpl; [discriminate|].
  destruct (Ascii.eqb ch "010") eqn:Hch.
  - intros [= <-]. apply Ascii.eqb_eq in Hch as ->. exists []. reflexivity.
  - intros Hskip. destruct (IH Hskip) as [line ->].
    exists (ch :: line). reflexivity.
Qed.

Lemma read_lat_long_run (fuel : nat) (file : list ascii) (lat lon : D) :
  (length file < fuel)%nat ->
  exists r lat' lon' rest,
    read_lat_long fscanf fuel file lat lon = Ok (r, lat', lon', rest)
    /\ ((r = 1%Z
         /\ exists skipped line taken,
              file = skipped ++ line
              /\ (skipped = [] \/ last skipped = Some "010"%char)
              /\ fscanf line = (Scan2 lat' lon', taken)
              /\ rest = drop taken line)
        \/ (r = 0%Z /\ rest = [] /\ lon' = lon
            /\ forall lat2 lon2 taken,
                 fscanf file <> (Scan2 lat2 lon2, taken))).
Proof.
  revert file lat. induction fuel as [|fuel IH]; intros file lat Hfuel; [lia|].
  simpl. destruct (fscanf file) as [scanned taken] eqn:Hscan.
  assert (Hloop : forall lat0 : D,
    (forall lat2 lon2 n, (scanned, taken) <> (Scan2 lat2 lon2, n)) ->
    exists r lat' lon' rest,
      match skip_line (drop taken file) with
      | Some file' => read_lat_long fscanf fuel file' lat0 lon
      | None => Ok (0%Z, lat0, lon, [])
      end = Ok (r, lat', lon', rest)
      /\ ((r = 1%Z
           /\ exists skipped line n,
                file = skipped ++ line
                /\ (skipped = [] \/ last skipped = Some "010"%char)
                /\ fscanf line = (Scan2 lat' lon', n)
                /\ rest = drop n line)
          \/ (r = 0%Z /\ rest = [] /\ lon' = lon
              /\ forall lat2 lon2 n,
                   (scanned, taken) <> (Scan2 lat2 lon2, n)))).
  { intros lat0 Hnot.
    destruct (skip_line (drop taken file)) as [file'|] eqn:Hskip.
    - apply skip_line_Some in Hskip as [line Hline].
      assert (Hlen : (length file' < fuel)%nat).
      { pose proof (f_equal length Hline) as Hl.
        rewrite length_drop, length_app in Hl. simpl in Hl. lia. }
      destruct (IH file' lat0 Hlen) as (r & lat' & lon' & rest & Hrun & Hr).
      exists r, lat', lon', rest. split; [exact Hrun|].
      destruct Hr as [(-> & skipped & s & n & -> & Hlast & Hs & ->)
                     |(-> & -> & -> & _)].
      + left. split; [reflexivity|].
        exists (take taken file ++ line ++ "010"%char :: skipped), s, n.
        split.
        { rewrite <- (take_drop taken file) at 1. rewrite Hline.
          rewrite <- !app_assoc. reflexivity. }
        split; [|split; [exact Hs|reflexivity]].
        right. rewrite app_assoc, last_app_cons, last_cons.
        destruct Hlast as [-> | ->]; reflexivity.
      + right. repeat split. exact Hnot.
    - exists 0%Z, lat0, lon, []. split; [reflexivity|].
      right. repeat split. exact Hnot. }
  destruct scanned as [| |lat1|lat1 lon1].
  - apply Hloop. congruence.
  - apply Hloop. congruence.
  - apply Hloop. congruence.
  - exists 1%Z, lat1, lon1, (drop taken file). split; [reflexivity|].
    left. split; [reflexivity|].
    exists [], file, taken. repeat split; [left; reflexivity|exact Hscan].
Qed.

(** X16.  Whatever [fscanf] is, [read_lat_long] returns, after one round
    more than the file has characters at most, and it returns 0 or 1.  It
    returns 1 with the two numbers of a scan that gave both, taken at the
    start of the file or just behind a line feed, and with the file where
    that scan left it.  It returns 0 at the end of the file, with [*lon] as
    it was, when the first scan, at least, did not give both numbers. *)
Theorem read_lat_long_returns (file : list ascii) (lat lon : D) :
  exists r lat' lon' rest,
    read_lat_long fscanf (S (length file)) file lat lon
    = Ok (r, lat', lon', rest)
    /\ ((r = 1%Z
         /\ exists skipped line taken,
              file = skipped ++ line
              /\ (skipped = [] \/ last skipped = Some "010"%char)
              /\ fscanf line = (Scan2 lat' lon', taken)
              /\ rest = drop taken line)
        \/ (r = 0%Z /\ rest = [] /\ lon' = lon
            /\ forall lat2 lon2 taken,
                 fscanf file <> (Scan2 lat2 lon2, taken))).
Proof. apply read_lat_long_run. lia. Qed.

End Reading.
